(** * bq34z100-g1-flash: the flashing script [main.py], embedded in Rocq

    The script drives a TI bq34z100-g1 fuel gauge over i2c: it enters ROM
    mode, mass-erases the data flash, (is meant to) write an .srec image and
    restarts the gauge program.

    The embedding follows the Python source function by function.

    - Python values are the inductive [value]; a Python list is a reference
      into a store of lists, because [swapbytes] mutates its argument in
      place and the callers keep using the same list object.
    - Every [def] of the script is a Rocq function from the list of actual
      arguments to a computation in the monad [M]; a call whose number of
      arguments does not fit the [def] raises [TypeError], as in Python.
    - A computation threads the store and the trace of observable events
      (lines printed, bus opened, bus transactions, sleeps) and either
      returns a value or raises a Python exception.
    - The modules [smbus], [os.path], [time] and [sys] are not part of the
      repository; what the script uses of them is modelled in [world]
      (which files exist, which ports open, which transactions the device
      acknowledges) and in the small definitions of the section on external
      modules.
    - Integers are [Z] and [%] is [Z.modulo].  What [/] does on two
      integers depends on the interpreter, and nothing in the script says
      which one runs it: it is the floor division [Z.div] in Python 2 and
      the true division, with a float result, in Python 3.  The interpreter
      is part of [world].  Floats are written as the rationals they
      denote. *)

From Stdlib Require Import ZArith QArith String Ascii List Lia.
From stdpp Require Import base list strings pretty.

Open Scope Z_scope.

(** ** Values, exceptions, events *)

Definition loc := nat.

Inductive value : Type :=
| VNone
| VInt (n : Z)
| VFloat (q : Q)
| VBool (b : bool)
| VStr (s : string)
| VList (l : loc)
| VBus (port : Z).

Inductive exn : Type :=
| TypeError
| NameError
| IndexError
| AttributeError
| UnboundLocalError
| IOError
| SystemExit.

Definition exn_eqb (a b : exn) : bool :=
  match a, b with
  | TypeError, TypeError
  | NameError, NameError
  | IndexError, IndexError
  | AttributeError, AttributeError
  | UnboundLocalError, UnboundLocalError
  | IOError, IOError
  | SystemExit, SystemExit => true
  | _, _ => false
  end.

(** What a run does that can be seen from outside.  [ECall] is emitted by
    no function of the script: it is what the call-site probe [probe]
    records. *)
Inductive event : Type :=
| EPrint (line : string)
| EOpen (port : Z)
| EBlockWrite (device register : Z) (data : list Z)
| EByteWrite (device register byte : Z)
| ESleep (sec : Q)
| ECall (callee : string) (args : list value).

Definition is_bus_write (e : event) : bool :=
  match e with
  | EBlockWrite _ _ _ | EByteWrite _ _ _ => true
  | _ => false
  end.


(** The bus transactions of a trace, in order. *)
Definition bus_writes (t : list event) : list event := List.filter is_bus_write t.


(** ** The interpreter *)

Inductive python_version : Type :=
| Python2
| Python3.

(** [a / b] on two integers, the divisor positive: the floor of the
    quotient in Python 2, the float nearest to the quotient in Python 3.
    The one division of the script, 365 / 256, has a binary fraction for
    quotient, so that float is the quotient itself. *)
Definition py_div (v : python_version) (a : Z) (b : positive) : value :=
  match v with
  | Python2 => VInt (a / Z.pos b)
  | Python3 => VFloat (a # b)
  end.

(** ** The outside world

    [files p] is the content of the regular file at path [p], if there is
    one.  [bus_opens port] tells whether /dev/i2c-port can be opened.
    [acks hist e] tells whether the transaction [e], issued after the
    events [hist], is acknowledged; a transaction that is not makes the
    [smbus] call raise [IOError].  [interpreter] is the Python that runs
    the script. *)
Record world : Type := World {
  files : string -> option string;
  bus_opens : Z -> bool;
  acks : list event -> event -> bool;
  interpreter : python_version
}.

(** ** Store, trace and the monad of computations *)

Record state : Type := State {
  heap : list (list value);
  trace : list event
}.

Inductive result (A : Type) : Type :=
| Ok (a : A)
| Raise (e : exn).
Arguments Ok {A} a.
Arguments Raise {A} e.

Definition M (A : Type) : Type := state -> result A * state.

Definition ret {A} (a : A) : M A := fun s => (Ok a, s).

Definition bind {A B} (m : M A) (k : A -> M B) : M B :=
  fun s =>
    match m s with
    | (Ok a, s') => k a s'
    | (Raise e, s') => (Raise e, s')
    end.

Definition raise {A} (e : exn) : M A := fun s => (Raise e, s).

#[global] Instance M_ret : MRet M := @ret.
#[global] Instance M_bind : MBind M := fun A B k m => bind m k.

(** [try: m except e: h] *)
Definition try_except {A} (m : M A) (e : exn) (h : M A) : M A :=
  fun s =>
    match m s with
    | (Raise e', s') => if exn_eqb e' e then h s' else (Raise e', s')
    | r => r
    end.

Definition emit (e : event) : M unit :=
  fun s => (Ok tt, State (heap s) (trace s ++ [e])).

Definition get_trace : M (list event) := fun s => (Ok (trace s), s).

(** A list display [[a, b, ...]] makes a new list object. *)
Definition new_list (xs : list value) : M value :=
  fun s => (Ok (VList (length (heap s))), State (heap s ++ [xs]) (trace s)).

(** The list object behind a reference.  A reference is only ever made by
    [new_list], so it points into the store; the other branch is there to
    make the function total. *)
Definition read_list (l : loc) : M (list value) :=
  fun s =>
    match heap s !! l with
    | Some xs => (Ok xs, s)
    | None => (Raise NameError, s)
    end.

Definition write_list (l : loc) (xs : list value) : M unit :=
  fun s => (Ok tt, State (<[l := xs]> (heap s)) (trace s)).

(** [xs[i]] on the list object at [l] *)
Definition getitem (l : loc) (i : nat) : M value :=
  xs ← read_list l;
  match xs !! i with
  | Some x => ret x
  | None => raise IndexError
  end.

(** [xs[i] = v] on the list object at [l]: in place *)
Definition setitem (l : loc) (i : nat) (v : value) : M unit :=
  xs ← read_list l;
  if (i <? length xs)%nat then write_list l (<[i := v]> xs) else raise IndexError.

(** Truth value of an object, as [if] takes it. *)
Definition truthy (v : value) : bool :=
  match v with
  | VNone => false
  | VBool b => b
  | VInt n => negb (n =? 0)
  | VFloat q => negb (Qeq_bool q 0)
  | VStr s => negb (String.eqb s EmptyString)
  | VList _ | VBus _ => true
  end.

(** ** External modules: print, time, sys, os.path, smbus *)

Definition print (line : string) : M unit := emit (EPrint line).

(** [time.sleep(sec)] *)
Definition time_sleep (sec : value) : M value :=
  match sec with
  | VFloat q => emit (ESleep q) ;; ret VNone
  | VInt n => emit (ESleep (inject_Z n)) ;; ret VNone
  | _ => raise TypeError
  end.

(** [sys.exit()] *)
Definition sys_exit {A} : M A := raise SystemExit.

(** [os.path.isfile(p)] *)
Definition os_path_isfile (w : world) (p : string) : bool :=
  match files w p with
  | Some _ => true
  | None => false
  end.

(** [p.rfind(c)] for a one-character [c]: the highest index of [c] in [p],
    or -1. *)
Fixpoint rfind_from (c : ascii) (p : string) (i last : Z) : Z :=
  match p with
  | EmptyString => last
  | String a p' => rfind_from c p' (i + 1) (if Ascii.eqb a c then i else last)
  end.

Definition rfind (c : ascii) (p : string) : Z := rfind_from c p 0 (-1).

(** The loop of [genericpath._splitext] that skips the leading dots of the
    last path component: [true] when a character other than the dot stands
    between [filenameIndex] and the last dot, [n] positions further. *)
Fixpoint has_stem (p : string) (filenameIndex n : nat) : bool :=
  match n with
  | O => false
  | S n' =>
      match String.get filenameIndex p with
      | Some a =>
          if Ascii.eqb a "."%char then has_stem p (S filenameIndex) n' else true
      | None => false
      end
  end.

(** [os.path.splitext(p)] of [posixpath]. *)
Definition os_path_splitext (p : string) : string * string :=
  let sepIndex := rfind "/"%char p in
  let dotIndex := rfind "."%char p in
  if (sepIndex <? dotIndex)
     && has_stem p (Z.to_nat (sepIndex + 1)) (Z.to_nat (dotIndex - (sepIndex + 1)))
  then (String.substring 0 (Z.to_nat dotIndex) p,
        String.substring (Z.to_nat dotIndex) (String.length p - Z.to_nat dotIndex) p)
  else (p, EmptyString).

(** A bus transaction: it is issued, and the device acknowledges it or the
    call raises [IOError]. *)
Definition transact (w : world) (e : event) : M value :=
  hist ← get_trace;
  emit e ;;
  if acks w hist e then ret VNone else raise IOError.

(** [smbus.SMBus(port)] *)
Definition smbus_SMBus (w : world) (port : value) : M value :=
  match port with
  | VInt p =>
      emit (EOpen p) ;;
      if bus_opens w p then ret (VBus p) else raise IOError
  | _ => raise TypeError
  end.

Fixpoint ints_of (xs : list value) : option (list Z) :=
  match xs with
  | [] => Some []
  | VInt n :: xs' =>
      match ints_of xs' with
      | Some ns => Some (n :: ns)
      | None => None
      end
  | _ :: _ => None
  end.

(** [bus.write_i2c_block_data(device, register, vals)]: [vals] is a list of
    1 to 32 integers. *)
Definition smbus_write_i2c_block_data (w : world) (device register vals : value)
  : M value :=
  match device, register, vals with
  | VInt d, VInt r, VList l =>
      xs ← read_list l;
      match ints_of xs with
      | Some ns =>
          if ((1 <=? length ns) && (length ns <=? 32))%nat
          then transact w (EBlockWrite d r ns)
          else raise TypeError
      | None => raise TypeError
      end
  | _, _, _ => raise TypeError
  end.

(** [bus.write_byte_data(device, register, value)] *)
Definition smbus_write_byte_data (w : world) (device register val : value)
  : M value :=
  match device, register, val with
  | VInt d, VInt r, VInt v => transact w (EByteWrite d r v)
  | _, _, _ => raise TypeError
  end.

(** ** The script *)

Definition FUEL_GAUGE_ADDRESS : Z := 0x55.

(** Device switches i2c address when in ROM mode *)
Definition ROM_ADDRESS : Z := 0x0B.

(** The names the module binds: its imports, constants and [def]s. *)
Definition module_names : list string :=
  ["argparse"; "os"; "smbus"; "sys"; "time";
   "FUEL_GAUGE_ADDRESS"; "ROM_ADDRESS";
   "execute_gas_gauge_program"; "flash_image"; "get_image";
   "mass_erase_data_flash"; "is_valid_image_file";
   "put_device_into_rom_mode"; "swapbytes"; "wait"; "write_block_data";
   "write_byte_data"; "write_image"; "main"]%string.

(** The checksum of the erase phase, the right-hand side of line 103:
    [(0x0C + 0x83 + 0xDE) % 0x010000]. *)
Definition erase_checksum : Z := (0x0C + 0x83 + 0xDE) mod 0x010000.

(** Evaluating a name that neither the module nor the builtins bind. *)
Definition unbound_name {A} (name : string) : M A := raise NameError.

Section Script.

Context (w : world).

(** [def swapbytes(bytes_in)]: the two item assignments happen in place, on
    the object the caller passed, and that same object is returned.  On a
    string the right-hand side is evaluated first ([IndexError] when it is
    too short) and the item assignment then fails. *)
Definition swapbytes (args : list value) : M value :=
  match args with
  | [bytes_in] =>
      match bytes_in with
      | VList l =>
          x1 ← getitem l 1;
          x0 ← getitem l 0;
          setitem l 0 x1 ;;
          setitem l 1 x0 ;;
          ret bytes_in
      | VStr s =>
          if (2 <=? String.length s)%nat then raise TypeError else raise IndexError
      | _ => raise TypeError
      end
  | _ => raise TypeError
  end.

(** [def wait(sec)] *)
Definition wait (args : list value) : M value :=
  match args with
  | [sec] => time_sleep sec ;; ret VNone
  | _ => raise TypeError
  end.

(** [def write_block_data(bus, register, values, device)]: the attribute
    [bus.write_i2c_block_data] is looked up first, then the arguments are
    evaluated, [swapbytes(values)] among them. *)
Definition write_block_data (args : list value) : M value :=
  match args with
  | [bus; register; values; device] =>
      match bus with
      | VBus _ =>
          swapped ← swapbytes [values];
          smbus_write_i2c_block_data w device register swapped ;;
          ret VNone
      | _ => raise AttributeError
      end
  | _ => raise TypeError
  end.

(** [def write_byte_data(bus, register, value, device)] *)
Definition write_byte_data (args : list value) : M value :=
  match args with
  | [bus; register; val; device] =>
      match bus with
      | VBus _ => smbus_write_byte_data w device register val ;; ret VNone
      | _ => raise AttributeError
      end
  | _ => raise TypeError
  end.

(** The two functions that call [write_byte_data] look the name up in the
    module when they run.  Their bodies are written once, over the function
    the name is bound to; the script binds it to [write_byte_data] above. *)
Section CallSites.

Variable write_byte_data_global : list value -> M value.

(** body of [def execute_gas_gauge_program()] *)
Definition execute_gas_gauge_program_body (args : list value) : M value :=
  match args with
  | [] =>
      (* Control 0x00 *)
      write_byte_data_global [VInt 0x00; VInt 0x0F; VInt ROM_ADDRESS] ;;
      (* DoD@EoC 0x64/0x65 *)
      write_byte_data_global [VInt 0x64; VInt 0x0F; VInt ROM_ADDRESS] ;;
      write_byte_data_global [VInt 0x65; VInt 0x00; VInt ROM_ADDRESS] ;;
      ret VNone
  | _ => raise TypeError
  end.

(** body of [def mass_erase_data_flash(bus)] *)
Definition mass_erase_data_flash_body (args : list value) : M value :=
  match args with
  | [bus] =>
      print "Starting mass erase data flash..." ;;
      (* Control 0x00 *)
      write_byte_data_global [VInt 0x00; VInt 0x0C; VInt ROM_ADDRESS] ;;
      (* RemainingCapacity 0x04/0x05 *)
      write_byte_data_global [VInt 0x04; VInt 0x83; VInt ROM_ADDRESS] ;;
      write_byte_data_global [VInt 0x05; VInt 0xDE; VInt ROM_ADDRESS] ;;
      (* Compute the checksum *)
      let checksum := erase_checksum in
      (* DoD@EoC 0x64/0x65 *)
      write_byte_data_global [VInt 0x64; VInt (checksum mod 0x0100); VInt ROM_ADDRESS] ;;
      write_byte_data_global
        [VInt 0x65; py_div (interpreter w) checksum 0x0100; VInt ROM_ADDRESS] ;;
      (* Wait half a second before beginning to write *)
      wait [VFloat 0.5] ;;
      ret (VInt checksum)
  | _ => raise TypeError
  end.

End CallSites.

(** [def execute_gas_gauge_program()] *)
Definition execute_gas_gauge_program : list value -> M value :=
  execute_gas_gauge_program_body write_byte_data.

(** [def mass_erase_data_flash(bus)] *)
Definition mass_erase_data_flash : list value -> M value :=
  mass_erase_data_flash_body write_byte_data.

(** [def get_image(path_to_image)]: the body is [pass]. *)
Definition get_image (args : list value) : M value :=
  match args with
  | [path_to_image] => ret VNone
  | _ => raise TypeError
  end.

(** [def write_image(path_to_image, checksum)]: the one statement of the
    body calls [get_image_data], a name that is bound nowhere. *)
Definition write_image (args : list value) : M value :=
  match args with
  | [path_to_image; checksum] =>
      image_data ← unbound_name (A := value) "get_image_data";
      ret VNone
  | _ => raise TypeError
  end.

(** [def is_valid_image_file(file_in)] *)
Definition is_valid_image_file (args : list value) : M value :=
  match args with
  | [file_in] =>
      match file_in with
      | VStr p =>
          (* Check if the file is, ya know, a file *)
          if negb (os_path_isfile w p) then ret (VBool false)
          else
            (* Check if it has the srec extension *)
            let '(filename, file_extension) := os_path_splitext p in
            if negb (String.eqb file_extension ".srec") then ret (VBool false)
            else ret (VBool true)
      | _ => raise TypeError
      end
  | _ => raise TypeError
  end.

(** [def put_device_into_rom_mode(bus)] *)
Definition put_device_into_rom_mode (args : list value) : M value :=
  match args with
  | [bus] =>
      print "Putting the fuel gauge into ROM mode..." ;;
      output_values ← new_list [VInt 0xff; VInt 0xff];
      let control_reg := VInt 0x00 in
      (* Init? *)
      write_block_data [bus; control_reg; output_values; VInt FUEL_GAUGE_ADDRESS] ;;
      write_block_data [bus; control_reg; output_values; VInt FUEL_GAUGE_ADDRESS] ;;
      (* Wait for 0.2 seconds *)
      wait [VFloat 0.2] ;;
      (* Write more *)
      output_values_2 ← new_list [VInt 0x0f; VInt 0x00];
      write_block_data [bus; control_reg; output_values_2; VInt FUEL_GAUGE_ADDRESS] ;;
      (* Wait more *)
      wait [VFloat 0.2] ;;
      print "Fuel gauge is in ROM mode." ;;
      ret VNone
  | _ => raise TypeError
  end.

(** body of [def flash_image(image_in, port=1)], both parameters bound *)
Definition flash_image_body (image_in port : value) : M value :=
  print "Starting flashing process..." ;;
  bus ← try_except (smbus_SMBus w port) IOError
          (match port with
           | VInt p =>
               let i2c_port := "/dev/i2c-" +:+ pretty p in
               print ("Could not open: " +:+ i2c_port) ;;
               print "Aborting." ;;
               sys_exit
           | _ => raise TypeError (* not reached: SMBus raised TypeError *)
           end);
  (* Put the device into ROM Mode *)
  put_device_into_rom_mode [bus] ;;
  (* mass erase data flash *)
  checksum ← mass_erase_data_flash [bus];
  (* Write each row of the srec file to the device *)
  write_image [image_in; checksum] ;;
  (* Execute the gas gauge program *)
  execute_gas_gauge_program [] ;;
  ret VNone.

(** [def flash_image(image_in, port=1)] *)
Definition flash_image (args : list value) : M value :=
  match args with
  | [image_in] => flash_image_body image_in (VInt 1)
  | [image_in; port] => flash_image_body image_in port
  | _ => raise TypeError
  end.

(** [def main()].  The command line is what argparse made of it: the
    required path [flash] and the integer [port_arg] (1 when -p is not
    given).  The local [port] is bound only when [arguments['port']] is
    true, that is, not 0. *)
Definition main (flash : string) (port_arg : Z) : M value :=
  let image_file := VStr flash in
  let port := if truthy (VInt port_arg) then Some (VInt port_arg) else None in
  print ("Using: " +:+ flash +:+ " to flash fuel gauge") ;;
  valid ← is_valid_image_file [image_file];
  if truthy valid then
    print (flash +:+ " is valid, starting flashing process.") ;;
    match port with
    | Some p => flash_image [image_file; p]
    | None => raise UnboundLocalError
    end ;;
    ret VNone
  else
    print (flash +:+ " is not a valid image file. Aborting flashing process.") ;;
    sys_exit.

End Script.

(** The state a run starts from. *)
Definition initial : state := State [] [].

(** The call-site probe: bound to the name [write_byte_data], it accepts any
    argument list, records it and returns [None]. *)
Definition probe (args : list value) : M value :=
  emit (ECall "write_byte_data" args) ;; ret VNone.

(** The number of arguments of each call the probe recorded, in order. *)
Fixpoint call_arities (t : list event) : list nat :=
  match t with
  | [] => []
  | ECall _ args :: t' => length args :: call_arities t'
  | _ :: t' => call_arities t'
  end.



(** The Checksum Accumulator in the words of the spec (section 4.2), to set
    beside the expression of line 103; the source has no such functions.
    [spec_start] is the zeroed accumulator, [spec_add] keeps the sum mod
    0x10000, [spec_finalize] gives the pair of low byte (sum mod 0x100) and
    high byte (sum div 0x100). *)
Definition spec_start : Z := 0.

Definition spec_add (acc byte : Z) : Z := (acc + byte) mod 0x10000.

Definition spec_finalize (acc : Z) : Z * Z := (acc mod 0x100, acc / 0x100).

(** A world for the examples: the path fw.srec is a regular file, empty;
    every port opens and the device acknowledges every transaction; the
    interpreter is Python 3. *)
Definition bench : world :=
  World (fun p => if String.eqb p "fw.srec" then Some EmptyString else None)
        (fun _ => true)
        (fun _ _ => true)
        Python3.

(** The same files, and no port that opens. *)
Definition no_bus : world :=
  World (files bench) (fun _ => false) (acks bench) (interpreter bench).

(** The bus transactions of ROM-mode entry, as [put_device_into_rom_mode]
    puts them on the wire when none fails. *)
Definition rom_entry_writes : list event :=
  [EBlockWrite FUEL_GAUGE_ADDRESS 0x00 [0xff; 0xff];
   EBlockWrite FUEL_GAUGE_ADDRESS 0x00 [0xff; 0xff];
   EBlockWrite FUEL_GAUGE_ADDRESS 0x00 [0x00; 0x0f]].

(** The files of [bench], every port opens, and no device answers. *)
Definition absent_device : world :=
  World (files bench) (fun _ => true) (fun _ _ => false) (interpreter bench).

(** As [bench], but fw.srec holds a line of text. *)
Definition bench_with_text : world :=
  World (fun p => if String.eqb p "fw.srec" then Some "S9030000FC" else None)
        (bus_opens bench)
        (acks bench)
        (interpreter bench).

(** * Properties *)

(** ** Running the primitives *)

Lemma run_bind {A B} (m : M A) (k : A -> M B) (s : state) :
  (m ≫= k) s =
  match m s with
  | (Ok a, s') => k a s'
  | (Raise e, s') => (Raise e, s')
  end.
Proof. reflexivity. Qed.

Lemma run_print (line : string) (s : state) :
  print line s = (Ok tt, State (heap s) (trace s ++ [EPrint line])).
Proof. reflexivity. Qed.

Lemma run_wait (q : Q) (s : state) :
  wait [VFloat q] s = (Ok VNone, State (heap s) (trace s ++ [ESleep q])).
Proof. reflexivity. Qed.

Lemma run_new_list (xs : list value) (s : state) :
  new_list xs s = (Ok (VList (length (heap s))), State (heap s ++ [xs]) (trace s)).
Proof. reflexivity. Qed.

Lemma lookup_fresh (h : list (list value)) (xs : list value) :
  (h ++ [xs]) !! length h = Some xs.
Proof. apply list_lookup_middle. reflexivity. Qed.

Lemma insert_fresh (h : list (list value)) (xs ys : list value) :
  <[length h := ys]> (h ++ [xs]) = h ++ [ys].
Proof.
  rewrite insert_app_r_alt by lia. rewrite Nat.sub_diag. reflexivity.
Qed.

Lemma getitem_at (s : state) (l : loc) (xs : list value) (i : nat) (x : value) :
  heap s !! l = Some xs -> xs !! i = Some x -> getitem l i s = (Ok x, s).
Proof.
  intros Hl Hi. unfold getitem, read_list. rewrite run_bind, Hl, Hi. reflexivity.
Qed.

Lemma setitem_at (s : state) (l : loc) (xs : list value) (i : nat) (v : value) :
  heap s !! l = Some xs -> (i < length xs)%nat ->
  setitem l i v s = (Ok tt, State (<[l := <[i := v]> xs]> (heap s)) (trace s)).
Proof.
  intros Hl Hi. unfold setitem, read_list. rewrite run_bind, Hl.
  apply Nat.ltb_lt in Hi. rewrite Hi. reflexivity.
Qed.

(** ** swapbytes and write_block_data *)

(** One call of [swapbytes] on a two-element list: the object is updated in
    place and handed back. *)
Lemma swapbytes_pair (s : state) (l : loc) (a b : value) :
  heap s !! l = Some [a; b] ->
  swapbytes [VList l] s = (Ok (VList l), State (<[l := [b; a]]> (heap s)) (trace s)).
Proof.
  intros Hl. unfold swapbytes.
  assert (Hlt : (l < length (heap s))%nat) by (eapply lookup_lt_Some; exact Hl).
  rewrite run_bind, (getitem_at s l [a; b] 1 b Hl eq_refl).
  rewrite run_bind, (getitem_at s l [a; b] 0 a Hl eq_refl).
  rewrite run_bind, (setitem_at s l [a; b] 0 b Hl) by (simpl; lia).
  rewrite run_bind.
  erewrite setitem_at; [ | simpl; apply list_lookup_insert_eq; exact Hlt | simpl; lia ].
  simpl. rewrite list_insert_insert_eq. reflexivity.
Qed.

(** The [smbus] block write reads the list and talks to the bus; it stores
    nothing. *)
Lemma smbus_write_i2c_block_data_heap (w : world) (device register vals : value)
  (s : state) :
  heap (snd (smbus_write_i2c_block_data w device register vals s)) = heap s.
Proof.
  unfold smbus_write_i2c_block_data.
  destruct device; try reflexivity.
  destruct register; try reflexivity.
  destruct vals; try reflexivity.
  rewrite run_bind. unfold read_list.
  destruct (heap s !! l); [ | reflexivity ].
  destruct (ints_of l0); [ | reflexivity ].
  destruct (_ && _); [ | reflexivity ].
  unfold transact. rewrite run_bind. simpl.
  destruct (acks w _ _); reflexivity.
Qed.

Lemma run_block_write (w : world) (s : state) (l : loc) (d r x y : Z) :
  heap s !! l = Some [VInt x; VInt y] ->
  smbus_write_i2c_block_data w (VInt d) (VInt r) (VList l) s =
  (if acks w (trace s) (EBlockWrite d r [x; y]) then Ok VNone else Raise IOError,
   State (heap s) (trace s ++ [EBlockWrite d r [x; y]])).
Proof.
  intros Hl. unfold smbus_write_i2c_block_data, read_list.
  rewrite run_bind, Hl. simpl. unfold transact. rewrite run_bind. simpl.
  destruct (acks w _ _); reflexivity.
Qed.

(** [write_block_data] on a list of two integers: what is sent is the
    swapped pair, and the caller's list is left swapped whether or not the
    device acknowledges. *)
Lemma write_block_data_pair (w : world) (s : state) (l : loc) (p d r x y : Z) :
  heap s !! l = Some [VInt x; VInt y] ->
  write_block_data w [VBus p; VInt r; VList l; VInt d] s =
  (if acks w (trace s) (EBlockWrite d r [y; x]) then Ok VNone else Raise IOError,
   State (<[l := [VInt y; VInt x]]> (heap s)) (trace s ++ [EBlockWrite d r [y; x]])).
Proof.
  intros Hl. unfold write_block_data.
  assert (Hlt : (l < length (heap s))%nat) by (eapply lookup_lt_Some; exact Hl).
  rewrite run_bind, (swapbytes_pair s l _ _ Hl).
  rewrite run_bind, (run_block_write w _ l d r y x)
    by (simpl; apply list_lookup_insert_eq; exact Hlt).
  simpl. destruct (acks w _ _); reflexivity.
Qed.

(** The list object is shared between the calls: a second
    [write_block_data] on the same list swaps it back, so it sends the pair
    in the order the list had at first.  The pair 0xFF, 0xFF of ROM-mode
    entry reads the same both ways. *)
Lemma write_block_data_twice (w : world) (s : state) (l : loc) (p d r x y : Z) :
  heap s !! l = Some [VInt x; VInt y] ->
  (forall hist data, acks w hist (EBlockWrite d r data) = true) ->
  (write_block_data w [VBus p; VInt r; VList l; VInt d] ;;
   write_block_data w [VBus p; VInt r; VList l; VInt d]) s =
  (Ok VNone,
   State (heap s) (trace s ++ [EBlockWrite d r [y; x]; EBlockWrite d r [x; y]])).
Proof.
  intros Hl Hack.
  assert (Hlt : (l < length (heap s))%nat) by (eapply lookup_lt_Some; exact Hl).
  rewrite run_bind, (write_block_data_pair w s l p d r x y Hl), Hack.
  rewrite (write_block_data_pair w _ l p d r y x)
    by (simpl; apply list_lookup_insert_eq; exact Hlt).
  cbn [heap trace]. rewrite Hack.
  rewrite list_insert_insert_eq, list_insert_id by exact Hl.
  rewrite <- app_assoc. reflexivity.
Qed.

(** C8.  The byte-pair reversal is an involution: on a list object that
    holds two elements, [swapbytes(swapbytes(xs))] returns the object it was
    given, which holds its two elements in the original order again; nothing
    else in the store or the trace has changed. *)
Theorem swapbytes_involution (s : state) (l : loc) (a b : value) :
  heap s !! l = Some [a; b] ->
  (swapbytes [VList l] ≫= fun once => swapbytes [once]) s = (Ok (VList l), s).
Proof.
  intros Hl.
  assert (Hlt : (l < length (heap s))%nat) by (eapply lookup_lt_Some; exact Hl).
  rewrite run_bind, (swapbytes_pair s l a b Hl).
  rewrite (swapbytes_pair _ l b a) by (simpl; apply list_lookup_insert_eq; exact Hlt).
  simpl. rewrite list_insert_insert_eq, list_insert_id by exact Hl.
  destruct s; reflexivity.
Qed.

Lemma swapbytes_involution_witness :
  (swapbytes [VList 0%nat] ≫= fun once => swapbytes [once])
    (State [[VInt 0x0f; VInt 0x00]] []) =
  (Ok (VList 0%nat), State [[VInt 0x0f; VInt 0x00]] []).
Proof.
  apply (swapbytes_involution (State [[VInt 0x0f; VInt 0x00]] []) 0%nat
           (VInt 0x0f) (VInt 0x00)).
  reflexivity.
Defined.

(** C10.  [swapbytes] swaps the two elements of the list object it is given
    and returns that object; so whenever [write_block_data] is called with a
    bus handle and a two-element list, the caller's list holds its elements
    in swapped order afterwards (whether the transaction is acknowledged or
    not), and on an acknowledged write of two integers the call returns
    after sending the swapped pair. *)
Theorem write_block_data_swaps_callers_list
  (w : world) (s : state) (l : loc) (a b : value) (p : Z) (register device : value) :
  heap s !! l = Some [a; b] ->
  swapbytes [VList l] s = (Ok (VList l), State (<[l := [b; a]]> (heap s)) (trace s))
  /\ heap (snd (write_block_data w [VBus p; register; VList l; device] s)) !! l
     = Some [b; a]
  /\ (forall x y r d,
        a = VInt x -> b = VInt y -> register = VInt r -> device = VInt d ->
        acks w (trace s) (EBlockWrite d r [y; x]) = true ->
        write_block_data w [VBus p; register; VList l; device] s =
        (Ok VNone,
         State (<[l := [b; a]]> (heap s)) (trace s ++ [EBlockWrite d r [y; x]]))).
Proof.
  intros Hl.
  assert (Hlt : (l < length (heap s))%nat) by (eapply lookup_lt_Some; exact Hl).
  split; [ exact (swapbytes_pair s l a b Hl) | split ].
  - unfold write_block_data.
    rewrite run_bind, (swapbytes_pair s l a b Hl), run_bind.
    pose proof (smbus_write_i2c_block_data_heap w device register (VList l)
                  (State (<[l := [b; a]]> (heap s)) (trace s))) as Hheap.
    destruct (smbus_write_i2c_block_data w device register (VList l) _)
      as [[v | e] s'];
      simpl in Hheap |- *; rewrite Hheap; apply list_lookup_insert_eq; exact Hlt.
  - intros x y r d -> -> -> -> Hack.
    rewrite (write_block_data_pair w s l p d r x y Hl), Hack. reflexivity.
Qed.

Lemma write_block_data_swaps_callers_list_witness :
  heap (snd (write_block_data bench [VBus 1; VInt 0x00; VList 0%nat; VInt 0x55]
               (State [[VInt 0x0f; VInt 0x00]] []))) !! 0%nat
  = Some [VInt 0x00; VInt 0x0f].
Proof.
  apply (write_block_data_swaps_callers_list bench
           (State [[VInt 0x0f; VInt 0x00]] []) 0%nat (VInt 0x0f) (VInt 0x00) 1
           (VInt 0x00) (VInt 0x55)).
  reflexivity.
Defined.

(** C3.  With a device that acknowledges block writes to the control
    register at its normal address, [put_device_into_rom_mode] issues
    exactly: the block write of the reversed pair 0xFF, 0xFF to register
    0x00 at address 0x55, twice; a sleep of 0.2 s; the block write of the
    reversed pair 0x0F, 0x00 (that is 0x00, 0x0F on the wire) to register
    0x00 at address 0x55; a sleep of 0.2 s.  It returns, and the two list
    objects it made are left in the store. *)
Theorem put_device_into_rom_mode_sequence (w : world) (p : Z) (s : state) :
  (forall hist data,
     acks w hist (EBlockWrite FUEL_GAUGE_ADDRESS 0x00 data) = true) ->
  put_device_into_rom_mode w [VBus p] s =
  (Ok VNone,
   State (heap s ++ [[VInt 0xff; VInt 0xff]; [VInt 0x00; VInt 0x0f]])
         (trace s ++
          [EPrint "Putting the fuel gauge into ROM mode...";
           EBlockWrite FUEL_GAUGE_ADDRESS 0x00 (rev [0xff; 0xff]);
           EBlockWrite FUEL_GAUGE_ADDRESS 0x00 (rev [0xff; 0xff]);
           ESleep 0.2;
           EBlockWrite FUEL_GAUGE_ADDRESS 0x00 (rev [0x0f; 0x00]);
           ESleep 0.2;
           EPrint "Fuel gauge is in ROM mode."])).
Proof.
  intros Hack. unfold put_device_into_rom_mode.
  rewrite run_bind, run_print.
  rewrite run_bind, run_new_list. cbn [heap trace].
  rewrite run_bind, (write_block_data_pair w _ _ p _ _ 0xff 0xff)
    by apply lookup_fresh.
  cbn [heap trace]. rewrite Hack, insert_fresh.
  rewrite run_bind, (write_block_data_pair w _ _ p _ _ 0xff 0xff)
    by apply lookup_fresh.
  cbn [heap trace]. rewrite Hack, insert_fresh.
  rewrite run_bind, run_wait.
  rewrite run_bind, run_new_list. cbn [heap trace].
  rewrite run_bind, (write_block_data_pair w _ _ p _ _ 0x0f 0x00)
    by apply lookup_fresh.
  cbn [heap trace]. rewrite Hack, insert_fresh.
  rewrite run_bind, run_wait.
  rewrite run_bind, run_print.
  cbn [heap trace]. unfold mret, M_ret, ret.
  repeat rewrite <- app_assoc. reflexivity.
Qed.

Lemma put_device_into_rom_mode_sequence_witness :
  put_device_into_rom_mode bench [VBus 1] initial =
  (Ok VNone,
   State [[VInt 0xff; VInt 0xff]; [VInt 0x00; VInt 0x0f]]
         [EPrint "Putting the fuel gauge into ROM mode...";
          EBlockWrite 0x55 0x00 [0xff; 0xff];
          EBlockWrite 0x55 0x00 [0xff; 0xff];
          ESleep 0.2;
          EBlockWrite 0x55 0x00 [0x00; 0x0f];
          ESleep 0.2;
          EPrint "Fuel gauge is in ROM mode."]).
Proof.
  apply (put_device_into_rom_mode_sequence bench 1 initial).
  intros hist data. reflexivity.
Defined.

(** ** Opening the bus *)

(** C7.  When the port cannot be opened, [flash_image] reports it (Could not
    open: /dev/i2c-port, Aborting.) and leaves through [sys.exit()]: the
    attempt to open is all that happens on the bus, no transaction is
    issued and ROM-mode entry is not begun. *)
Theorem flash_image_bus_unavailable (w : world) (image_in : value) (p : Z) (s : state) :
  bus_opens w p = false ->
  flash_image w [image_in; VInt p] s =
  (Raise SystemExit,
   State (heap s)
         (trace s ++
          [EPrint "Starting flashing process...";
           EOpen p;
           EPrint ("Could not open: " +:+ "/dev/i2c-" +:+ pretty p);
           EPrint "Aborting."]))
  /\ bus_writes (trace (snd (flash_image w [image_in; VInt p] s)))
     = bus_writes (trace s).
Proof.
  intros Hclosed.
  assert (Hrun : flash_image w [image_in; VInt p] s =
    (Raise SystemExit,
     State (heap s)
           (trace s ++
            [EPrint "Starting flashing process...";
             EOpen p;
             EPrint ("Could not open: " +:+ "/dev/i2c-" +:+ pretty p);
             EPrint "Aborting."]))).
  { unfold flash_image, flash_image_body.
    rewrite run_bind, run_print, run_bind.
    unfold try_except, smbus_SMBus.
    rewrite run_bind. unfold emit at 1. cbn [heap trace].
    rewrite Hclosed. unfold raise at 1. cbn [exn_eqb].
    rewrite run_bind, run_print, run_bind, run_print.
    cbn [heap trace]. unfold sys_exit, raise.
    repeat rewrite <- app_assoc. reflexivity. }
  split; [ exact Hrun | ].
  rewrite Hrun. cbn [snd trace]. unfold bus_writes.
  rewrite List.filter_app. cbn [List.filter is_bus_write]. apply app_nil_r.
Qed.

Lemma flash_image_bus_unavailable_witness :
  bus_opens no_bus 1 = false
  /\ flash_image no_bus [VStr "fw.srec"; VInt 1] initial =
     (Raise SystemExit,
      State []
            [EPrint "Starting flashing process...";
             EOpen 1;
             EPrint "Could not open: /dev/i2c-1";
             EPrint "Aborting."]).
Proof.
  split; [ reflexivity | ].
  apply (flash_image_bus_unavailable no_bus (VStr "fw.srec") 1 initial).
  reflexivity.
Defined.

(** ** The calls of write_byte_data *)

Lemma write_byte_data_three_arguments (w : world) (a b c : value) (s : state) :
  write_byte_data w [a; b; c] s = (Raise TypeError, s).
Proof. reflexivity. Qed.

Lemma run_mass_erase_data_flash (w : world) (bus : value) (s : state) :
  mass_erase_data_flash w [bus] s =
  (Raise TypeError,
   State (heap s) (trace s ++ [EPrint "Starting mass erase data flash..."])).
Proof. reflexivity. Qed.


(** What the call sites of [mass_erase_data_flash] pass, seen by the probe. *)
Lemma mass_erase_data_flash_call_sites (w : world) (bus : value) (s : state) :
  mass_erase_data_flash_body w probe [bus] s =
  (Ok (VInt 0x016D),
   State (heap s)
         (trace s ++
          [EPrint "Starting mass erase data flash...";
           ECall "write_byte_data" [VInt 0x00; VInt 0x0C; VInt ROM_ADDRESS];
           ECall "write_byte_data" [VInt 0x04; VInt 0x83; VInt ROM_ADDRESS];
           ECall "write_byte_data" [VInt 0x05; VInt 0xDE; VInt ROM_ADDRESS];
           ECall "write_byte_data" [VInt 0x64; VInt 0x6D; VInt ROM_ADDRESS];
           ECall "write_byte_data"
                 [VInt 0x65; py_div (interpreter w) 0x016D 0x0100; VInt ROM_ADDRESS];
           ESleep 0.5])).
Proof.
  unfold mass_erase_data_flash_body, probe.
  repeat (rewrite run_bind; cbn [print emit wait time_sleep heap trace mret M_ret ret]).
  repeat rewrite <- app_assoc. reflexivity.
Qed.

(** What the call sites of [execute_gas_gauge_program] pass. *)
Lemma execute_gas_gauge_program_call_sites (s : state) :
  execute_gas_gauge_program_body probe [] s =
  (Ok VNone,
   State (heap s)
         (trace s ++
          [ECall "write_byte_data" [VInt 0x00; VInt 0x0F; VInt ROM_ADDRESS];
           ECall "write_byte_data" [VInt 0x64; VInt 0x0F; VInt ROM_ADDRESS];
           ECall "write_byte_data" [VInt 0x65; VInt 0x00; VInt ROM_ADDRESS]])).
Proof.
  unfold execute_gas_gauge_program_body, probe.
  repeat (rewrite run_bind; cbn [emit heap trace mret M_ret ret]).
  repeat rewrite <- app_assoc. reflexivity.
Qed.

Lemma filter_bus_writes_app (t u : list event) :
  bus_writes (t ++ u) = bus_writes t ++ bus_writes u.
Proof. apply List.filter_app. Qed.

(** C9.  [write_byte_data] takes four arguments and raises [TypeError] on
    any other number; each of the five calls in [mass_erase_data_flash] and
    of the three in [execute_gas_gauge_program] passes three.  So both
    functions raise [TypeError] at their first call, whatever they are
    given, and neither issues a bus transaction. *)
Theorem write_byte_data_calls_raise_TypeError :
  (forall w args s,
     length args <> 4%nat -> write_byte_data w args s = (Raise TypeError, s))
  /\ (forall w bus,
        call_arities (trace (snd (mass_erase_data_flash_body w probe [bus] initial)))
        = [3; 3; 3; 3; 3]%nat)
  /\ call_arities (trace (snd (execute_gas_gauge_program_body probe [] initial)))
     = [3; 3; 3]%nat
  /\ (forall w args s,
        exists s',
          mass_erase_data_flash w args s = (Raise TypeError, s')
          /\ bus_writes (trace s') = bus_writes (trace s))
  /\ (forall w args s,
        exists s',
          execute_gas_gauge_program w args s = (Raise TypeError, s')
          /\ bus_writes (trace s') = bus_writes (trace s)).
Proof.
  split; [ | split; [ | split; [ | split ] ] ].
  - intros w args s Hlen.
    destruct args as [ | a [ | b [ | c [ | d [ | e args ] ] ] ] ];
      try reflexivity; simpl in Hlen; lia.
  - intros w bus. rewrite mass_erase_data_flash_call_sites. reflexivity.
  - rewrite execute_gas_gauge_program_call_sites. reflexivity.
  - intros w args s.
    destruct args as [ | bus [ | b args ] ].
    + exists s. split; reflexivity.
    + eexists. split; [ apply run_mass_erase_data_flash | ].
      cbn [trace]. rewrite filter_bus_writes_app. apply app_nil_r.
    + exists s. split; reflexivity.
  - intros w args s. exists s.
    destruct args as [ | a args ]; split; reflexivity.
Qed.

(** C4 (the code departs from it).  Run on an open bus whose device
    acknowledges everything, [mass_erase_data_flash] prints its banner and
    raises [TypeError] at the call of line 96: no erase command, no write of
    the registers 0x04/0x05 or 0x64/0x65 and no sleep of 0.5 s.  The whole
    run of [main] on an existing fw.srec ends there, after ROM-mode entry. *)
Theorem mass_erase_data_flash_issues_nothing :
  mass_erase_data_flash bench [VBus 1] initial =
  (Raise TypeError, State [] [EPrint "Starting mass erase data flash..."])
  /\ main bench "fw.srec" 1 initial =
     (Raise TypeError,
      State [[VInt 0xff; VInt 0xff]; [VInt 0x00; VInt 0x0f]]
            [EPrint "Using: fw.srec to flash fuel gauge";
             EPrint "fw.srec is valid, starting flashing process.";
             EPrint "Starting flashing process...";
             EOpen 1;
             EPrint "Putting the fuel gauge into ROM mode...";
             EBlockWrite 0x55 0x00 [0xff; 0xff];
             EBlockWrite 0x55 0x00 [0xff; 0xff];
             ESleep 0.2;
             EBlockWrite 0x55 0x00 [0x00; 0x0f];
             ESleep 0.2;
             EPrint "Fuel gauge is in ROM mode.";
             EPrint "Starting mass erase data flash..."]).
Proof. split; reflexivity. Qed.

(** C2 (the code departs from it).  [write_image] writes nothing: whatever
    path and checksum it is given, its one statement evaluates the name
    [get_image_data], which the module does not bind, and raises
    [NameError]; store and trace are as before.  [get_image], the function
    the module does have, returns [None] without reading anything. *)
Theorem write_image_writes_nothing :
  (forall path_to_image checksum s,
     write_image [path_to_image; checksum] s = (Raise NameError, s))
  /\ ~ In "get_image_data" module_names
  /\ (forall path_to_image s, get_image [path_to_image] s = (Ok VNone, s)).
Proof.
  split; [ reflexivity | split; [ | reflexivity ] ].
  unfold module_names. simpl. intros H.
  repeat (destruct H as [H | H]; [ discriminate H | ]). exact H.
Qed.

(** ** The erase-phase checksum *)

(** C1 as stated fails: the checksum of the erase phase is 0x016D; its low
    byte is not 0x91 and its high byte is not 0x00. *)
Lemma erase_checksum_bytes_not_0x91_0x00 :
  ~ (erase_checksum mod 0x0100 = 0x91 /\ erase_checksum / 0x0100 = 0x00).
Proof. intros [Hlow _]. discriminate Hlow. Qed.

(** C1, amended.  The checksum of the erase phase is what the accumulator
    of the spec holds after 0x0C, 0x83 and 0xDE from zero: 0x016D, with low
    byte (mod 0x100) 0x6D and high byte (div 0x100) 0x01.  Lines 106 and
    107 of [mass_erase_data_flash] name the values for the registers 0x64
    and 0x65 from it, as the calls show when [write_byte_data] is bound to
    the probe: 0x6D for 0x64, and for 0x65 the result of
    [checksum / 0x0100], which is 0x01 under Python 2 and the float
    365/256 = 1.42578125 under Python 3.  With the script's own
    [write_byte_data] the function raises [TypeError] and returns no
    checksum. *)
Theorem erase_checksum_bytes (w : world) (bus : value) (s : state) :
  erase_checksum = fold_left spec_add [0x0C; 0x83; 0xDE] spec_start
  /\ erase_checksum = 0x016D
  /\ erase_checksum mod 0x0100 = 0x6D
  /\ erase_checksum / 0x0100 = 0x01
  /\ spec_finalize erase_checksum = (0x6D, 0x01)
  /\ mass_erase_data_flash_body w probe [bus] s =
     (Ok (VInt 0x016D),
      State (heap s)
            (trace s ++
             [EPrint "Starting mass erase data flash...";
              ECall "write_byte_data" [VInt 0x00; VInt 0x0C; VInt ROM_ADDRESS];
              ECall "write_byte_data" [VInt 0x04; VInt 0x83; VInt ROM_ADDRESS];
              ECall "write_byte_data" [VInt 0x05; VInt 0xDE; VInt ROM_ADDRESS];
              ECall "write_byte_data" [VInt 0x64; VInt 0x6D; VInt ROM_ADDRESS];
              ECall "write_byte_data"
                    [VInt 0x65;
                     match interpreter w with
                     | Python2 => VInt 0x01
                     | Python3 => VFloat (365 # 256)
                     end;
                     VInt ROM_ADDRESS];
              ESleep 0.5]))
  /\ (365 # 256 == 1.42578125)%Q
  /\ fst (mass_erase_data_flash w [bus] s) = Raise TypeError.
Proof.
  repeat (split; [ reflexivity | ]).
  split; [ | split; reflexivity ].
  rewrite mass_erase_data_flash_call_sites.
  destruct (interpreter w); reflexivity.
Qed.



(** ** Validation of the image *)


(** The run never looks at what the file holds: two worlds that differ in
    the files only give [flash_image] the same run. *)
Lemma flash_image_ignores_files (f g : string -> option string)
  (opens : Z -> bool) (ack : list event -> event -> bool) (v : python_version)
  (args : list value) (s : state) :
  flash_image (World f opens ack v) args s = flash_image (World g opens ack v) args s.
Proof. reflexivity. Qed.




(** ** swapbytes and write_block_data on lists of any length *)

Lemma swapbytes_at (s : state) (l : loc) (a b : value) (rest : list value) :
  heap s !! l = Some (a :: b :: rest) ->
  swapbytes [VList l] s =
  (Ok (VList l), State (<[l := b :: a :: rest]> (heap s)) (trace s)).
Proof.
  intros Hl. unfold swapbytes.
  assert (Hlt : (l < length (heap s))%nat) by (eapply lookup_lt_Some; exact Hl).
  rewrite run_bind, (getitem_at s l (a :: b :: rest) 1 b Hl eq_refl).
  rewrite run_bind, (getitem_at s l (a :: b :: rest) 0 a Hl eq_refl).
  rewrite run_bind, (setitem_at s l (a :: b :: rest) 0 b Hl) by (simpl; lia).
  rewrite run_bind.
  erewrite setitem_at; [ | simpl; apply list_lookup_insert_eq; exact Hlt | simpl; lia ].
  simpl. rewrite list_insert_insert_eq. reflexivity.
Qed.

Lemma swapbytes_too_short (s : state) (l : loc) (xs : list value) :
  heap s !! l = Some xs -> (length xs < 2)%nat ->
  swapbytes [VList l] s = (Raise IndexError, s).
Proof.
  intros Hl Hlen. unfold swapbytes, getitem, read_list.
  rewrite !run_bind, Hl.
  destruct xs as [ | a [ | b xs ] ]; [ reflexivity | reflexivity | simpl in Hlen; lia ].
Qed.

(** X1.  A list with fewer than two elements cannot be swapped or sent:
    [swapbytes] raises [IndexError] when it reads [bytes_in[1]], before it
    assigns anything, and [write_block_data] raises it before it reaches
    the bus.  The list, the store and the trace are as before. *)
Theorem short_list_raises_IndexError
  (w : world) (s : state) (l : loc) (xs : list value) (p : Z) (register device : value) :
  heap s !! l = Some xs -> (length xs < 2)%nat ->
  swapbytes [VList l] s = (Raise IndexError, s)
  /\ write_block_data w [VBus p; register; VList l; device] s = (Raise IndexError, s).
Proof.
  intros Hl Hlen. split.
  - exact (swapbytes_too_short s l xs Hl Hlen).
  - unfold write_block_data.
    rewrite run_bind, (swapbytes_too_short s l xs Hl Hlen). reflexivity.
Qed.

Lemma short_list_raises_IndexError_witness :
  swapbytes [VList 0%nat] (State [[VInt 0x0f]] []) =
  (Raise IndexError, State [[VInt 0x0f]] [])
  /\ write_block_data bench [VBus 1; VInt 0x00; VList 0%nat; VInt 0x55]
       (State [[VInt 0x0f]] []) =
     (Raise IndexError, State [[VInt 0x0f]] []).
Proof.
  apply (short_list_raises_IndexError bench (State [[VInt 0x0f]] []) 0%nat
           [VInt 0x0f] 1 (VInt 0x00) (VInt 0x55)).
  - reflexivity.
  - simpl. lia.
Defined.

(** X2.  On a list of two or more elements [swapbytes] exchanges the first
    two and leaves every further element where it is (it does not reverse
    the list); it returns the object it was given, and a second call puts
    the list back as it was. *)
Theorem swapbytes_exchanges_first_two
  (s : state) (l : loc) (a b : value) (rest : list value) :
  heap s !! l = Some (a :: b :: rest) ->
  swapbytes [VList l] s =
  (Ok (VList l), State (<[l := b :: a :: rest]> (heap s)) (trace s))
  /\ (swapbytes [VList l] ≫= fun once => swapbytes [once]) s = (Ok (VList l), s).
Proof.
  intros Hl.
  assert (Hlt : (l < length (heap s))%nat) by (eapply lookup_lt_Some; exact Hl).
  split; [ exact (swapbytes_at s l a b rest Hl) | ].
  rewrite run_bind, (swapbytes_at s l a b rest Hl).
  rewrite (swapbytes_at _ l b a rest)
    by (simpl; apply list_lookup_insert_eq; exact Hlt).
  simpl. rewrite list_insert_insert_eq, list_insert_id by exact Hl.
  destruct s; reflexivity.
Qed.

Lemma swapbytes_exchanges_first_two_witness :
  swapbytes [VList 0%nat] (State [[VInt 1; VInt 2; VInt 3; VInt 4]] []) =
  (Ok (VList 0%nat), State [[VInt 2; VInt 1; VInt 3; VInt 4]] []).
Proof.
  apply (swapbytes_exchanges_first_two
           (State [[VInt 1; VInt 2; VInt 3; VInt 4]] []) 0%nat
           (VInt 1) (VInt 2) [VInt 3; VInt 4]).
  reflexivity.
Defined.

Lemma ints_of_map_VInt (ns : list Z) : ints_of (map VInt ns) = Some ns.
Proof.
  induction ns as [ | n ns IH ]; [ reflexivity | ].
  simpl. rewrite IH. reflexivity.
Qed.

Lemma run_block_write_ints (w : world) (s : state) (l : loc) (d r : Z) (ns : list Z) :
  heap s !! l = Some (map VInt ns) ->
  (1 <= length ns <= 32)%nat ->
  smbus_write_i2c_block_data w (VInt d) (VInt r) (VList l) s =
  (if acks w (trace s) (EBlockWrite d r ns) then Ok VNone else Raise IOError,
   State (heap s) (trace s ++ [EBlockWrite d r ns])).
Proof.
  intros Hl [Hlo Hhi]. unfold smbus_write_i2c_block_data, read_list.
  rewrite run_bind, Hl, ints_of_map_VInt.
  apply Nat.leb_le in Hlo. apply Nat.leb_le in Hhi. rewrite Hlo, Hhi.
  cbn [andb]. unfold transact. rewrite run_bind. simpl.
  destruct (acks w _ _); reflexivity.
Qed.

(** X3.  [write_block_data] on a list of 2 to 32 integers sends one block
    write to the given device and register whose data are the list with its
    first two elements exchanged and the others in place; the caller's list
    is left in that order, and the call returns [None] when the device
    acknowledges and raises [IOError] when it does not. *)
Theorem write_block_data_sends_swapped_head
  (w : world) (s : state) (l : loc) (p d r x y : Z) (rest : list Z) :
  heap s !! l = Some (VInt x :: VInt y :: map VInt rest) ->
  (length rest <= 30)%nat ->
  write_block_data w [VBus p; VInt r; VList l; VInt d] s =
  (if acks w (trace s) (EBlockWrite d r (y :: x :: rest))
   then Ok VNone else Raise IOError,
   State (<[l := VInt y :: VInt x :: map VInt rest]> (heap s))
         (trace s ++ [EBlockWrite d r (y :: x :: rest)])).
Proof.
  intros Hl Hlen. unfold write_block_data.
  assert (Hlt : (l < length (heap s))%nat) by (eapply lookup_lt_Some; exact Hl).
  rewrite run_bind, (swapbytes_at s l _ _ _ Hl).
  rewrite run_bind, (run_block_write_ints w _ l d r (y :: x :: rest)).
  - cbn [heap trace]. destruct (acks w _ _); reflexivity.
  - cbn [heap map]. apply list_lookup_insert_eq. exact Hlt.
  - simpl. lia.
Qed.

Lemma write_block_data_sends_swapped_head_witness :
  write_block_data bench [VBus 1; VInt 0x00; VList 0%nat; VInt 0x0B]
    (State [[VInt 1; VInt 2; VInt 3; VInt 4]] []) =
  (Ok VNone,
   State [[VInt 2; VInt 1; VInt 3; VInt 4]] [EBlockWrite 0x0B 0x00 [2; 1; 3; 4]]).
Proof.
  apply (write_block_data_sends_swapped_head bench
           (State [[VInt 1; VInt 2; VInt 3; VInt 4]] []) 0%nat 1 0x0B 0x00 1 2 [3; 4]).
  - reflexivity.
  - simpl. lia.
Defined.

(** X4.  The swap is done on the caller's list object, so two
    [write_block_data] calls on the same two-element list send the pair
    swapped the first time and in its original order the second time, and
    leave the list as it was at first. *)
Theorem write_block_data_same_list_twice
  (w : world) (s : state) (l : loc) (p d r x y : Z) :
  heap s !! l = Some [VInt x; VInt y] ->
  (forall hist data, acks w hist (EBlockWrite d r data) = true) ->
  (write_block_data w [VBus p; VInt r; VList l; VInt d] ;;
   write_block_data w [VBus p; VInt r; VList l; VInt d]) s =
  (Ok VNone,
   State (heap s) (trace s ++ [EBlockWrite d r [y; x]; EBlockWrite d r [x; y]])).
Proof.
  intros Hl Hack. exact (write_block_data_twice w s l p d r x y Hl Hack).
Qed.

Lemma write_block_data_same_list_twice_witness :
  (write_block_data bench [VBus 1; VInt 0x00; VList 0%nat; VInt 0x55] ;;
   write_block_data bench [VBus 1; VInt 0x00; VList 0%nat; VInt 0x55])
    (State [[VInt 0x0f; VInt 0x00]] []) =
  (Ok VNone,
   State [[VInt 0x0f; VInt 0x00]]
         [EBlockWrite 0x55 0x00 [0x00; 0x0f]; EBlockWrite 0x55 0x00 [0x0f; 0x00]]).
Proof.
  apply (write_block_data_same_list_twice bench
           (State [[VInt 0x0f; VInt 0x00]] []) 0%nat 1 0x55 0x00 0x0f 0x00).
  - reflexivity.
  - intros hist data. reflexivity.
Defined.

(** ** Whole runs *)

(** ROM-mode entry in full: what [put_device_into_rom_mode] returns and
    leaves behind, by which of its three transactions the device
    acknowledges. *)
Lemma run_put_device_into_rom_mode (w : world) (p : Z) (s : state) :
  put_device_into_rom_mode w [VBus p] s =
  let banner := EPrint "Putting the fuel gauge into ROM mode..." in
  let init := EBlockWrite FUEL_GAUGE_ADDRESS 0x00 [0xff; 0xff] in
  let more := EBlockWrite FUEL_GAUGE_ADDRESS 0x00 [0x00; 0x0f] in
  let ones := [VInt 0xff; VInt 0xff] in
  let rom := [VInt 0x00; VInt 0x0f] in
  if acks w (trace s ++ [banner]) init then
    if acks w (trace s ++ [banner; init]) init then
      if acks w (trace s ++ [banner; init; init; ESleep 0.2]) more then
        (Ok VNone,
         State (heap s ++ [ones; rom])
               (trace s ++ [banner; init; init; ESleep 0.2; more; ESleep 0.2;
                            EPrint "Fuel gauge is in ROM mode."]))
      else
        (Raise IOError,
         State (heap s ++ [ones; rom])
               (trace s ++ [banner; init; init; ESleep 0.2; more]))
    else
      (Raise IOError, State (heap s ++ [ones]) (trace s ++ [banner; init; init]))
  else
    (Raise IOError, State (heap s ++ [ones]) (trace s ++ [banner; init])).
Proof.
  cbv zeta. unfold put_device_into_rom_mode.
  rewrite run_bind, run_print.
  rewrite run_bind, run_new_list. cbn [heap trace].
  rewrite run_bind, (write_block_data_pair w _ _ p _ _ 0xff 0xff)
    by apply lookup_fresh.
  cbn [heap trace]. rewrite insert_fresh, <- !app_assoc. cbn [app].
  destruct (acks w (trace s ++ [_]) _); [ | reflexivity ].
  rewrite run_bind, (write_block_data_pair w _ _ p _ _ 0xff 0xff)
    by apply lookup_fresh.
  cbn [heap trace]. rewrite insert_fresh, <- !app_assoc. cbn [app].
  destruct (acks w (trace s ++ [_; _]) _); [ | reflexivity ].
  rewrite run_bind, run_wait.
  rewrite run_bind, run_new_list. cbn [heap trace].
  rewrite run_bind, (write_block_data_pair w _ _ p _ _ 0x0f 0x00)
    by apply lookup_fresh.
  cbn [heap trace]. rewrite insert_fresh, <- !app_assoc. cbn [app].
  destruct (acks w (trace s ++ [_; _; _; _]) _); [ | reflexivity ].
  rewrite run_bind, run_wait.
  rewrite run_bind, run_print.
  cbn [heap trace]. unfold mret, M_ret, ret.
  rewrite <- !app_assoc. reflexivity.
Qed.

(** The shape every run of ROM-mode entry has. *)
Lemma rom_mode_entry_prefix (w : world) (p : Z) (s : state) :
  exists k,
    bus_writes (trace (snd (put_device_into_rom_mode w [VBus p] s))) =
    bus_writes (trace s) ++ take k rom_entry_writes
    /\ (fst (put_device_into_rom_mode w [VBus p] s) = Ok VNone /\ k = 3%nat
        \/ fst (put_device_into_rom_mode w [VBus p] s) = Raise IOError
           /\ (1 <= k <= 3)%nat).
Proof.
  rewrite run_put_device_into_rom_mode. cbv zeta.
  destruct (acks w (trace s ++ [_]) _);
    [ destruct (acks w (trace s ++ [_; _]) _);
      [ destruct (acks w (trace s ++ [_; _; _; _]) _) | ] | ].
  - exists 3%nat. cbn [fst snd trace]. rewrite filter_bus_writes_app.
    split; [ reflexivity | left; split; reflexivity ].
  - exists 3%nat. cbn [fst snd trace]. rewrite filter_bus_writes_app.
    split; [ reflexivity | right; split; [ reflexivity | lia ] ].
  - exists 2%nat. cbn [fst snd trace]. rewrite filter_bus_writes_app.
    split; [ reflexivity | right; split; [ reflexivity | lia ] ].
  - exists 1%nat. cbn [fst snd trace]. rewrite filter_bus_writes_app.
    split; [ reflexivity | right; split; [ reflexivity | lia ] ].
Qed.

(** X5.  [put_device_into_rom_mode] stops at the first transaction the
    device does not acknowledge and does not retry: if the first block
    write fails it raises [IOError] with that one write issued; if the
    second fails, with two writes issued and no sleep; if the third fails,
    with the two writes, the sleep of 0.2 s and the third write issued and
    no second sleep.  It returns only when all three are acknowledged,
    after the second sleep.  The writes all go to register 0x00 at address
    0x55. *)
Theorem put_device_into_rom_mode_stops_at_failure (w : world) (p : Z) (s : state) :
  put_device_into_rom_mode w [VBus p] s =
  let banner := EPrint "Putting the fuel gauge into ROM mode..." in
  let init := EBlockWrite FUEL_GAUGE_ADDRESS 0x00 [0xff; 0xff] in
  let more := EBlockWrite FUEL_GAUGE_ADDRESS 0x00 [0x00; 0x0f] in
  let ones := [VInt 0xff; VInt 0xff] in
  let rom := [VInt 0x00; VInt 0x0f] in
  if acks w (trace s ++ [banner]) init then
    if acks w (trace s ++ [banner; init]) init then
      if acks w (trace s ++ [banner; init; init; ESleep 0.2]) more then
        (Ok VNone,
         State (heap s ++ [ones; rom])
               (trace s ++ [banner; init; init; ESleep 0.2; more; ESleep 0.2;
                            EPrint "Fuel gauge is in ROM mode."]))
      else
        (Raise IOError,
         State (heap s ++ [ones; rom])
               (trace s ++ [banner; init; init; ESleep 0.2; more]))
    else
      (Raise IOError, State (heap s ++ [ones]) (trace s ++ [banner; init; init]))
  else
    (Raise IOError, State (heap s ++ [ones]) (trace s ++ [banner; init])).
Proof. exact (run_put_device_into_rom_mode w p s). Qed.

(** Opening the bus in [flash_image]: the [try] and its handler. *)
Lemma run_open_bus (w : world) (p : Z) (s : state) :
  try_except (smbus_SMBus w (VInt p)) IOError
    (let i2c_port := "/dev/i2c-" +:+ pretty p in
     print ("Could not open: " +:+ i2c_port) ;; print "Aborting." ;; sys_exit) s =
  if bus_opens w p
  then (Ok (VBus p), State (heap s) (trace s ++ [EOpen p]))
  else (Raise SystemExit,
        State (heap s)
              (trace s ++ [EOpen p;
                           EPrint ("Could not open: " +:+ "/dev/i2c-" +:+ pretty p);
                           EPrint "Aborting."])).
Proof.
  unfold try_except, smbus_SMBus.
  rewrite run_bind. unfold emit at 1. cbn [heap trace].
  destruct (bus_opens w p); [ reflexivity | ].
  unfold raise at 1. cbn [exn_eqb]. cbv zeta.
  rewrite run_bind, run_print, run_bind, run_print.
  cbn [heap trace]. unfold sys_exit, raise.
  rewrite <- !app_assoc. reflexivity.
Qed.

(** [flash_image] with both arguments: it ends where opening the bus or
    ROM-mode entry fails, and otherwise at the first statement of the mass
    erase. *)
Lemma run_flash_image (w : world) (image_in : value) (p : Z) (s : state) :
  flash_image w [image_in; VInt p] s =
  if bus_opens w p then
    match put_device_into_rom_mode w [VBus p]
            (State (heap s)
                   (trace s ++ [EPrint "Starting flashing process..."; EOpen p]))
    with
    | (Ok _, s2) =>
        (Raise TypeError,
         State (heap s2) (trace s2 ++ [EPrint "Starting mass erase data flash..."]))
    | (Raise e, s2) => (Raise e, s2)
    end
  else
    (Raise SystemExit,
     State (heap s)
           (trace s ++
            [EPrint "Starting flashing process...";
             EOpen p;
             EPrint ("Could not open: " +:+ "/dev/i2c-" +:+ pretty p);
             EPrint "Aborting."])).
Proof.
  unfold flash_image, flash_image_body.
  rewrite run_bind, run_print, run_bind, run_open_bus.
  cbn [heap trace]. rewrite <- !app_assoc. cbn [app].
  destruct (bus_opens w p); [ | reflexivity ].
  rewrite run_bind.
  destruct (put_device_into_rom_mode w [VBus p] _) as [[v | e] s2]; [ | reflexivity ].
  rewrite run_bind, run_mass_erase_data_flash. reflexivity.
Qed.

Lemma run_is_valid_image_file (w : world) (p : string) (s : state) :
  is_valid_image_file w [VStr p] s =
  (Ok (VBool (os_path_isfile w p && String.eqb (snd (os_path_splitext p)) ".srec")), s).
Proof.
  unfold is_valid_image_file.
  destruct (os_path_isfile w p); [ | reflexivity ].
  cbn [negb andb]. destruct (os_path_splitext p) as [filename file_extension].
  cbn [snd]. destruct (String.eqb file_extension ".srec"); reflexivity.
Qed.

(** [main] in full, down to the call of [flash_image]. *)
Lemma run_main (w : world) (flash : string) (port_arg : Z) (s : state) :
  main w flash port_arg s =
  let announce := EPrint ("Using: " +:+ flash +:+ " to flash fuel gauge") in
  if os_path_isfile w flash && String.eqb (snd (os_path_splitext flash)) ".srec" then
    let accepted := EPrint (flash +:+ " is valid, starting flashing process.") in
    if port_arg =? 0 then
      (Raise UnboundLocalError, State (heap s) (trace s ++ [announce; accepted]))
    else
      match flash_image w [VStr flash; VInt port_arg]
              (State (heap s) (trace s ++ [announce; accepted]))
      with
      | (Ok _, s') => (Ok VNone, s')
      | (Raise e, s') => (Raise e, s')
      end
  else
    (Raise SystemExit,
     State (heap s)
           (trace s ++
            [announce;
             EPrint (flash +:+ " is not a valid image file. Aborting flashing process.")])).
Proof.
  cbv zeta. unfold main.
  rewrite run_bind, run_print, run_bind, run_is_valid_image_file.
  cbn [truthy].
  destruct (os_path_isfile w flash && String.eqb (snd (os_path_splitext flash)) ".srec").
  - rewrite run_bind, run_print. cbn [heap trace].
    rewrite <- !app_assoc. cbn [app].
    destruct (port_arg =? 0); [ reflexivity | ].
    cbn [negb]. rewrite run_bind.
    destruct (flash_image w _ _) as [[v | e] s']; reflexivity.
  - rewrite run_bind, run_print. cbn [heap trace].
    rewrite <- !app_assoc. reflexivity.
Qed.

Lemma valid_path (w : world) (flash : string) :
  files w flash <> None -> snd (os_path_splitext flash) = ".srec" ->
  os_path_isfile w flash && String.eqb (snd (os_path_splitext flash)) ".srec" = true.
Proof.
  intros Hfile Hext. unfold os_path_isfile.
  destruct (files w flash); [ | congruence ].
  rewrite Hext. reflexivity.
Qed.

(** X6.  Port 0 cannot be used: [main] binds its local [port] only when the
    parsed port is true, so with -p 0 and a valid image path the call of
    [flash_image] raises [UnboundLocalError]; the bus is not opened and
    nothing is sent. *)
Theorem main_port_zero_is_unbound (w : world) (flash : string) (s : state) :
  files w flash <> None -> snd (os_path_splitext flash) = ".srec" ->
  main w flash 0 s =
  (Raise UnboundLocalError,
   State (heap s)
         (trace s ++
          [EPrint ("Using: " +:+ flash +:+ " to flash fuel gauge");
           EPrint (flash +:+ " is valid, starting flashing process.")])).
Proof.
  intros Hfile Hext.
  rewrite run_main. cbv zeta. rewrite (valid_path w flash Hfile Hext). reflexivity.
Qed.

Lemma main_port_zero_is_unbound_witness :
  main bench "fw.srec" 0 initial =
  (Raise UnboundLocalError,
   State []
         [EPrint "Using: fw.srec to flash fuel gauge";
          EPrint "fw.srec is valid, starting flashing process."]).
Proof.
  apply (main_port_zero_is_unbound bench "fw.srec" initial).
  - discriminate.
  - reflexivity.
Defined.

(** X7.  The best run there is: with a valid image path, a port other than
    0 that opens and a device that acknowledges the ROM-entry writes,
    [main] puts the device into ROM mode and then raises [TypeError] at the
    first statement of the mass erase.  Nothing is sent to the ROM address,
    and the gauge program is not restarted. *)
Theorem main_stops_after_rom_mode_entry
  (w : world) (flash : string) (port_arg : Z) (s : state) :
  files w flash <> None -> snd (os_path_splitext flash) = ".srec" ->
  port_arg <> 0 -> bus_opens w port_arg = true ->
  (forall hist data,
     acks w hist (EBlockWrite FUEL_GAUGE_ADDRESS 0x00 data) = true) ->
  main w flash port_arg s =
  (Raise TypeError,
   State (heap s ++ [[VInt 0xff; VInt 0xff]; [VInt 0x00; VInt 0x0f]])
         (trace s ++
          [EPrint ("Using: " +:+ flash +:+ " to flash fuel gauge");
           EPrint (flash +:+ " is valid, starting flashing process.");
           EPrint "Starting flashing process...";
           EOpen port_arg;
           EPrint "Putting the fuel gauge into ROM mode...";
           EBlockWrite FUEL_GAUGE_ADDRESS 0x00 [0xff; 0xff];
           EBlockWrite FUEL_GAUGE_ADDRESS 0x00 [0xff; 0xff];
           ESleep 0.2;
           EBlockWrite FUEL_GAUGE_ADDRESS 0x00 [0x00; 0x0f];
           ESleep 0.2;
           EPrint "Fuel gauge is in ROM mode.";
           EPrint "Starting mass erase data flash..."])).
Proof.
  intros Hfile Hext Hport Hopen Hack.
  rewrite run_main. cbv zeta. rewrite (valid_path w flash Hfile Hext).
  apply Z.eqb_neq in Hport. rewrite Hport.
  rewrite run_flash_image, Hopen, run_put_device_into_rom_mode. cbv zeta.
  rewrite !Hack. cbn [heap trace].
  rewrite <- !app_assoc. reflexivity.
Qed.

Lemma main_stops_after_rom_mode_entry_witness :
  main bench "fw.srec" 7 initial =
  (Raise TypeError,
   State [[VInt 0xff; VInt 0xff]; [VInt 0x00; VInt 0x0f]]
         [EPrint "Using: fw.srec to flash fuel gauge";
          EPrint "fw.srec is valid, starting flashing process.";
          EPrint "Starting flashing process...";
          EOpen 7;
          EPrint "Putting the fuel gauge into ROM mode...";
          EBlockWrite 0x55 0x00 [0xff; 0xff];
          EBlockWrite 0x55 0x00 [0xff; 0xff];
          ESleep 0.2;
          EBlockWrite 0x55 0x00 [0x00; 0x0f];
          ESleep 0.2;
          EPrint "Fuel gauge is in ROM mode.";
          EPrint "Starting mass erase data flash..."]).
Proof.
  apply (main_stops_after_rom_mode_entry bench "fw.srec" 7 initial).
  - discriminate.
  - reflexivity.
  - discriminate.
  - reflexivity.
  - intros hist data. reflexivity.
Defined.

Lemma flash_image_never_completes (w : world) (image_in : value) (p : Z) (s : state) :
  exists e s' k,
    flash_image w [image_in; VInt p] s = (Raise e, s')
    /\ bus_writes (trace s') = bus_writes (trace s) ++ take k rom_entry_writes.
Proof.
  rewrite run_flash_image.
  destruct (bus_opens w p).
  - destruct (rom_mode_entry_prefix w p
                (State (heap s)
                       (trace s ++ [EPrint "Starting flashing process..."; EOpen p])))
      as [k [Hwrites Hres]].
    destruct (put_device_into_rom_mode w [VBus p] _) as [[v | e] s2];
      cbn [fst snd trace] in Hwrites, Hres.
    + exists TypeError. eexists. exists k. split; [ reflexivity | ].
      cbn [trace]. rewrite filter_bus_writes_app, Hwrites, filter_bus_writes_app.
      cbn. rewrite !app_nil_r. reflexivity.
    + exists e, s2, k. split; [ reflexivity | ].
      rewrite Hwrites, filter_bus_writes_app. cbn. rewrite app_nil_r. reflexivity.
  - exists SystemExit. eexists. exists 0%nat. split; [ reflexivity | ].
    cbn [trace]. rewrite filter_bus_writes_app. reflexivity.
Qed.

(** X8.  No run of [main] returns: whatever the files, the port, the bus
    and the device, the run ends in an exception; and the bus transactions
    it has issued by then are the first [k] of the three ROM-entry block
    writes, so no byte write and nothing addressed to the ROM address 0x0B
    ever goes out. *)
Theorem main_never_completes (w : world) (flash : string) (port_arg : Z) (s : state) :
  exists e s' k,
    main w flash port_arg s = (Raise e, s')
    /\ bus_writes (trace s') = bus_writes (trace s) ++ take k rom_entry_writes
    /\ (k <= 3)%nat.
Proof.
  rewrite run_main. cbv zeta.
  destruct (os_path_isfile w flash && _).
  - destruct (port_arg =? 0).
    + exists UnboundLocalError. eexists. exists 0%nat.
      split; [ reflexivity | split; [ | lia ] ].
      cbn [trace]. rewrite filter_bus_writes_app. reflexivity.
    + destruct (flash_image_never_completes w (VStr flash) port_arg
                  (State (heap s)
                         (trace s ++
                          [EPrint ("Using: " +:+ flash +:+ " to flash fuel gauge");
                           EPrint (flash +:+ " is valid, starting flashing process.")])))
        as [e [s' [k [Hrun Hwrites]]]].
      rewrite Hrun. exists e, s', (Nat.min k 3).
      split; [ reflexivity | split; [ | lia ] ].
      rewrite Hwrites. cbn [trace]. rewrite filter_bus_writes_app. cbn [app].
      change (bus_writes [_; _]) with (@nil event). rewrite app_nil_r.
      f_equal. unfold rom_entry_writes.
      destruct k as [ | [ | [ | [ | k ] ] ] ]; reflexivity.
  - exists SystemExit. eexists. exists 0%nat.
    split; [ reflexivity | split; [ | lia ] ].
    cbn [trace]. rewrite filter_bus_writes_app. reflexivity.
Qed.

(** X9.  The run does not depend on what the image file holds: two worlds
    that agree on whether the path is a regular file, on the ports and on
    the device give [main] the same result, store and trace.  The script
    never reads the file. *)
Theorem main_ignores_file_content
  (w1 w2 : world) (flash : string) (port_arg : Z) (s : state) :
  os_path_isfile w1 flash = os_path_isfile w2 flash ->
  bus_opens w1 = bus_opens w2 ->
  acks w1 = acks w2 ->
  main w1 flash port_arg s = main w2 flash port_arg s.
Proof.
  intros Hfile Hopens Hacks.
  destruct w1 as [f1 o1 a1 v1], w2 as [f2 o2 a2 v2].
  cbn [bus_opens acks] in Hopens, Hacks. subst o2 a2.
  rewrite !run_main. cbv zeta. rewrite Hfile. reflexivity.
Qed.

Lemma main_ignores_file_content_witness :
  main bench "fw.srec" 1 initial = main bench_with_text "fw.srec" 1 initial.
Proof.
  apply (main_ignores_file_content bench bench_with_text "fw.srec" 1 initial);
    reflexivity.
Defined.

(** X11.  A device that does not answer: with a valid image path and a
    port that opens, the first ROM-entry write is not acknowledged and the
    [IOError] of that write leaves [main] uncaught (the [try] of
    [flash_image] covers the opening of the bus only).  One transaction has
    gone out; there is no second attempt and no sleep. *)
Theorem main_device_absent (w : world) (flash : string) (port_arg : Z) (s : state) :
  files w flash <> None -> snd (os_path_splitext flash) = ".srec" ->
  port_arg <> 0 -> bus_opens w port_arg = true ->
  (forall hist e, acks w hist e = false) ->
  main w flash port_arg s =
  (Raise IOError,
   State (heap s ++ [[VInt 0xff; VInt 0xff]])
         (trace s ++
          [EPrint ("Using: " +:+ flash +:+ " to flash fuel gauge");
           EPrint (flash +:+ " is valid, starting flashing process.");
           EPrint "Starting flashing process...";
           EOpen port_arg;
           EPrint "Putting the fuel gauge into ROM mode...";
           EBlockWrite FUEL_GAUGE_ADDRESS 0x00 [0xff; 0xff]])).
Proof.
  intros Hfile Hext Hport Hopen Hack.
  rewrite run_main. cbv zeta. rewrite (valid_path w flash Hfile Hext).
  apply Z.eqb_neq in Hport. rewrite Hport.
  rewrite run_flash_image, Hopen, run_put_device_into_rom_mode. cbv zeta.
  rewrite !Hack. cbn [heap trace].
  rewrite <- !app_assoc. reflexivity.
Qed.

Lemma main_device_absent_witness :
  main absent_device "fw.srec" 1 initial =
  (Raise IOError,
   State [[VInt 0xff; VInt 0xff]]
         [EPrint "Using: fw.srec to flash fuel gauge";
          EPrint "fw.srec is valid, starting flashing process.";
          EPrint "Starting flashing process...";
          EOpen 1;
          EPrint "Putting the fuel gauge into ROM mode...";
          EBlockWrite 0x55 0x00 [0xff; 0xff]]).
Proof.
  apply (main_device_absent absent_device "fw.srec" 1 initial).
  - discriminate.
  - reflexivity.
  - discriminate.
  - reflexivity.
  - intros hist e. reflexivity.
Defined.

(** ** What is_valid_image_file accepts *)

Lemma substring_whole (q : string) : substring 0 (String.length q) q = q.
Proof.
  induction q as [ | c q IH ]; [ reflexivity | ].
  simpl. rewrite IH. reflexivity.
Qed.

(** [p[:d] + p[d:]] is [p], wherever the cut is. *)
Lemma substring_split (p : string) (d : nat) :
  p = substring 0 d p +:+ substring d (String.length p - d) p.
Proof.
  revert d. induction p as [ | c p IH ]; intros d.
  - destruct d; reflexivity.
  - destruct d as [ | d ].
    + change (String.length (String c p) - 0)%nat with (S (String.length p)).
      simpl. rewrite substring_whole. reflexivity.
    + simpl.
      change (String c p =
              String c (substring 0 d p +:+ substring d (String.length p - d) p)).
      f_equal. apply IH.
Qed.

Lemma substring_head_empty (p : string) (d : nat) :
  (0 < d)%nat -> substring 0 d p = EmptyString -> p = EmptyString.
Proof.
  intros Hd Hsub. destruct d as [ | d ]; [ lia | ].
  destruct p as [ | c p ]; [ reflexivity | discriminate Hsub ].
Qed.

Lemma has_stem_positive (p : string) (filenameIndex n : nat) :
  has_stem p filenameIndex n = true -> (0 < n)%nat.
Proof. destruct n; [ discriminate | lia ]. Qed.

Lemma rfind_from_lower_bound (c : ascii) (p : string) (i last : Z) :
  -1 <= last -> 0 <= i -> -1 <= rfind_from c p i last.
Proof.
  revert i last. induction p as [ | a p IH ]; intros i last Hlast Hi.
  - exact Hlast.
  - simpl. apply IH; [ | lia ].
    destruct (Ascii.eqb a c); lia.
Qed.

Lemma splitext_srec (p : string) :
  snd (os_path_splitext p) = ".srec" ->
  exists stem, p = stem +:+ ".srec" /\ stem <> EmptyString.
Proof.
  unfold os_path_splitext. intros Hext.
  destruct (_ && _) eqn:Hcond; [ | discriminate Hext ].
  apply andb_prop in Hcond. destruct Hcond as [_ Hstem].
  apply has_stem_positive in Hstem.
  pose proof (rfind_from_lower_bound "/"%char p 0 (-1)) as Hsep.
  fold (rfind "/"%char p) in Hsep.
  assert (Hdot : (0 < Z.to_nat (rfind "."%char p))%nat) by lia.
  cbn [snd] in Hext.
  exists (substring 0 (Z.to_nat (rfind "."%char p)) p). split.
  - rewrite <- Hext. apply substring_split.
  - intros Hempty. apply substring_head_empty in Hempty; [ | exact Hdot ].
    rewrite Hempty in Hext.
    destruct (Z.to_nat (rfind "."%char EmptyString)); discriminate Hext.
Qed.

(** X10.  [is_valid_image_file] says [True] only of a path that is an
    existing regular file and ends in .srec (in lower case) after a
    non-empty stem; it says so without raising and without any effect. *)
Theorem is_valid_image_file_accepts_only_srec
  (w : world) (p : string) (s : state) :
  fst (is_valid_image_file w [VStr p] s) = Ok (VBool true) ->
  files w p <> None
  /\ (exists stem, p = stem +:+ ".srec" /\ stem <> EmptyString)
  /\ snd (is_valid_image_file w [VStr p] s) = s.
Proof.
  rewrite run_is_valid_image_file. cbn [fst snd]. intros Hvalid.
  assert (Hboth : os_path_isfile w p
                  && String.eqb (snd (os_path_splitext p)) ".srec" = true)
    by (destruct (_ && _); [ reflexivity | discriminate Hvalid ]).
  apply andb_prop in Hboth. destruct Hboth as [Hfile Hext].
  split; [ | split; [ | reflexivity ] ].
  - unfold os_path_isfile in Hfile.
    destruct (files w p); [ discriminate | discriminate Hfile ].
  - apply splitext_srec. apply String.eqb_eq. exact Hext.
Qed.

Lemma is_valid_image_file_accepts_only_srec_witness :
  files bench "fw.srec" <> None
  /\ (exists stem, "fw.srec" = stem +:+ ".srec" /\ stem <> EmptyString)
  /\ snd (is_valid_image_file bench [VStr "fw.srec"] initial) = initial.
Proof.
  apply (is_valid_image_file_accepts_only_srec bench "fw.srec" initial).
  reflexivity.
Defined.

Lemma append_cons (c : ascii) (a b : string) :
  String c a +:+ b = String c (a +:+ b).
Proof. reflexivity. Qed.

Lemma append_nil (b : string) : EmptyString +:+ b = b.
Proof. reflexivity. Qed.

Lemma length_append (a b : string) :
  String.length (a +:+ b) = (String.length a + String.length b)%nat.
Proof.
  induction a as [ | c a IH ]; [ reflexivity | ].
  rewrite append_cons. simpl. rewrite IH. reflexivity.
Qed.

Lemma rfind_from_append (ch : ascii) (a b : string) (i last : Z) :
  rfind_from ch (a +:+ b) i last =
  rfind_from ch b (i + Z.of_nat (String.length a)) (rfind_from ch a i last).
Proof.
  revert i last. induction a as [ | c a IH ]; intros i last.
  - rewrite append_nil. simpl. rewrite Z.add_0_r. reflexivity.
  - rewrite append_cons. simpl rfind_from. rewrite IH.
    f_equal. simpl String.length. lia.
Qed.

Lemma rfind_from_upper_bound (ch : ascii) (p : string) (i last : Z) :
  last < i -> rfind_from ch p i last < i + Z.of_nat (String.length p).
Proof.
  revert i last. induction p as [ | a p IH ]; intros i last Hlast.
  - simpl. lia.
  - simpl rfind_from.
    assert (Hnext : (if Ascii.eqb a ch then i else last) < i + 1)
      by (destruct (Ascii.eqb a ch); lia).
    specialize (IH (i + 1) _ Hnext). simpl String.length. lia.
Qed.

Lemma get_in_range (p : string) (k : nat) :
  (k < String.length p)%nat -> exists a, get k p = Some a.
Proof.
  revert k. induction p as [ | c p IH ]; intros k Hk; simpl in Hk.
  - lia.
  - destruct k as [ | k ]; [ exists c; reflexivity | ].
    simpl. apply IH. lia.
Qed.

(** The loop finds a character that is not a dot when there is one at
    distance [m], inside the string. *)
Lemma has_stem_reaches (p : string) (c : ascii) (m i : nat) :
  get (i + m) p = Some c -> Ascii.eqb c "."%char = false ->
  (i + m < String.length p)%nat ->
  has_stem p i (S m) = true.
Proof.
  revert i. induction m as [ | m IH ]; intros i Hget Hc Hlen.
  - rewrite Nat.add_0_r in Hget. simpl. rewrite Hget, Hc. reflexivity.
  - destruct (get_in_range p i) as [a Ha]; [ lia | ].
    change (has_stem p i (S (S m))) with
      (match get i p with
       | Some a => if Ascii.eqb a "."%char then has_stem p (S i) (S m) else true
       | None => false
       end).
    rewrite Ha. destruct (Ascii.eqb a "."%char); [ | reflexivity ].
    apply IH; [ | exact Hc | lia ].
    rewrite <- Hget. f_equal. lia.
Qed.

Lemma substring_skip_append (a b : string) (k m : nat) :
  substring (String.length a + k) m (a +:+ b) = substring k m b.
Proof.
  induction a as [ | c a IH ]; [ reflexivity | ].
  rewrite append_cons. simpl. exact IH.
Qed.

Lemma rfind_dot_of_srec_name (stem : string) (c : ascii) :
  rfind "."%char (stem +:+ String c ".srec") = Z.of_nat (String.length stem) + 1.
Proof.
  unfold rfind. rewrite rfind_from_append. reflexivity.
Qed.

Lemma rfind_slash_of_srec_name (stem : string) (c : ascii) :
  Ascii.eqb c "/"%char = false ->
  rfind "/"%char (stem +:+ String c ".srec") = rfind "/"%char stem.
Proof.
  intros Hslash. unfold rfind. rewrite rfind_from_append.
  simpl rfind_from. rewrite Hslash. reflexivity.
Qed.

Lemma splitext_of_srec_name (stem : string) (c : ascii) :
  Ascii.eqb c "/"%char = false -> Ascii.eqb c "."%char = false ->
  snd (os_path_splitext (stem +:+ String c ".srec")) = ".srec".
Proof.
  intros Hslash Hdot. unfold os_path_splitext.
  rewrite (rfind_dot_of_srec_name stem c),
          (rfind_slash_of_srec_name stem c Hslash).
  set (n := String.length stem).
  set (sp := rfind "/"%char stem).
  assert (Hlo : -1 <= sp) by (apply rfind_from_lower_bound; lia).
  assert (Hhi : sp < 0 + Z.of_nat n) by (apply rfind_from_upper_bound; lia).
  assert (Hlt : (sp <? Z.of_nat n + 1) = true) by (apply Z.ltb_lt; lia).
  rewrite Hlt. cbn [andb].
  assert (Hlen : String.length (stem +:+ String c ".srec") = (n + 6)%nat)
    by (rewrite length_append; reflexivity).
  replace (Z.to_nat (Z.of_nat n + 1 - (sp + 1)))
    with (S (n - Z.to_nat (sp + 1))) by lia.
  rewrite (has_stem_reaches _ c).
  - cbn [snd]. rewrite Hlen.
    replace (Z.to_nat (Z.of_nat n + 1)) with (n + 1)%nat by lia.
    replace (n + 6 - (n + 1))%nat with 5%nat by lia.
    unfold n. rewrite substring_skip_append. reflexivity.
  - replace (Z.to_nat (sp + 1) + (n - Z.to_nat (sp + 1)))%nat with (0 + n)%nat by lia.
    unfold n. rewrite <- append_correct2. reflexivity.
  - exact Hdot.
  - rewrite Hlen. lia.
Qed.

(** X12.  Every existing file whose path ends in .srec, with a character
    other than the dot and the slash just before the extension, is
    accepted: [is_valid_image_file] returns [True] for it, whatever the
    directories in front and whatever the file holds. *)
Theorem is_valid_image_file_accepts_srec_names
  (w : world) (stem : string) (c : ascii) (s : state) :
  files w (stem +:+ String c ".srec") <> None ->
  c <> "/"%char -> c <> "."%char ->
  is_valid_image_file w [VStr (stem +:+ String c ".srec")] s = (Ok (VBool true), s).
Proof.
  intros Hfile Hslash Hdot.
  apply Ascii.eqb_neq in Hslash. apply Ascii.eqb_neq in Hdot.
  rewrite run_is_valid_image_file, (splitext_of_srec_name stem c Hslash Hdot).
  unfold os_path_isfile.
  destruct (files w _); [ reflexivity | congruence ].
Qed.

Lemma is_valid_image_file_accepts_srec_names_witness :
  is_valid_image_file bench [VStr "fw.srec"] initial = (Ok (VBool true), initial).
Proof.
  apply (is_valid_image_file_accepts_srec_names bench "f" "w"%char initial);
    discriminate.
Defined.
